(** * Prompt optimizer service ([optimizer/api.py]): model and properties

    The service has three endpoints, [optimize_prompt], [get_prompt] and
    [promote_rollout], which talk to an external prompt registry through
    the Langfuse client [lf].  The endpoints are embedded as programs over
    the two registry operations they use; request validation (the pydantic
    [Field] constraints) is embedded as a function run before the endpoint
    body, as FastAPI does.

    Conventions.
    - Python [str] is [string]; [str.lower] is taken on the ASCII letters
      (the texts considered are ASCII).
    - Python [int] is [Z], Python [float] is a binary64 [float].
    - A value typed [Any] is a [Any] tree (the JSON shapes).
    - Dictionaries with computed keys are [gmap string _]; dictionary
      literals with a fixed set of keys are records.
    - Logging is not modelled. *)

From Stdlib Require Import ZArith Ascii String List Bool Lia.
From Stdlib Require Import PrimFloat.
From stdpp Require Import base option gmap strings.

Local Open Scope string_scope.
Local Open Scope Z_scope.

(** ** Python string operations *)

Module Str.

(** [c.lower()] for one character: 'A'..'Z' move to 'a'..'z'. *)
Definition lower_ascii (c : ascii) : ascii :=
  let n := nat_of_ascii c in
  if (Nat.leb 65 n && Nat.leb n 90)%bool then ascii_of_nat (n + 32) else c.

(** [s.lower()] on ASCII text.  Outside ASCII [str.lower] does more (it
    maps the Kelvin sign onto k, for one); those characters are left as
    they are here. *)
Fixpoint lower (s : string) : string :=
  match s with
  | EmptyString => EmptyString
  | String c t => String (lower_ascii c) (lower t)
  end.

(** [s.startswith(p)] *)
Fixpoint startswith (p s : string) : bool :=
  match p, s with
  | EmptyString, _ => true
  | String _ _, EmptyString => false
  | String a p', String b s' => Ascii.eqb a b && startswith p' s'
  end.

(** [needle in hay] *)
Fixpoint contains (needle hay : string) : bool :=
  startswith needle hay
  || match hay with
     | EmptyString => false
     | String _ t => contains needle t
     end.

(** [s.replace("", new)]: [new] goes before every character and at the
    end. *)
Fixpoint intersperse (new s : string) : string :=
  match s with
  | EmptyString => new
  | String c t => new +:+ String c (intersperse new t)
  end.

(** The left-to-right scan of [s.replace(old, new)] for a non-empty
    [old]: [skip] counts the characters of a match still to be dropped. *)
Fixpoint replace_scan (skip : nat) (old new s : string) : string :=
  match s with
  | EmptyString => EmptyString
  | String c t =>
      match skip with
      | S k => replace_scan k old new t
      | O =>
          if startswith old s
          then new +:+ replace_scan (Nat.pred (String.length old)) old new t
          else String c (replace_scan O old new t)
      end
  end.

(** [s.replace(old, new)]: every non-overlapping occurrence, leftmost
    first. *)
Definition replace (old new s : string) : string :=
  match old with
  | EmptyString => intersperse new s
  | String _ _ => replace_scan O old new s
  end.

(** "[s] contains [w] in any case": some factor of [s] lowers to [w]. *)
Definition mentions (w s : string) : Prop :=
  exists pre mid post, s = pre +:+ mid +:+ post /\ lower mid = w.

End Str.

(** ** Data model *)

(** Values of the fields typed [Any]. *)
#[warnings="-register-all"]
Inductive Any : Type :=
| ANone
| ABool (b : bool)
| AInt (n : Z)
| AFloat (x : float)
| AStr (s : string)
| AList (l : list Any)
| ADict (l : list (string * Any)).

(** [isinstance(v, str)] *)
Definition isinstance_str (v : Any) : bool :=
  match v with AStr _ => true | _ => false end.

(** The model once built: a field that was not sent holds its default
    (see [PromptConfig_defaults]), a field sent as null holds [None]. *)
Record PromptConfig := {
  temperature : option float;
  max_tokens : option Z;
  model : option string }.

Record PromptDraft := {
  type : string;
  prompt : Any;
  config : option PromptConfig }.

Record RolloutConfig := {
  strategy : string;
  percentage : Z;
  evaluation_metric : string;
  threshold : float }.

Record OptimizeRequest := {
  name : string;
  current_prompt : option string;
  draft : PromptDraft;
  objective : string;
  commit_message : option string;
  labels : list string;
  rollout : option RolloutConfig }.

(** The prompt object the Langfuse client hands back; the endpoints read
    [version], [prompt], [config] and [labels] from it. *)
Record PromptClient := {
  pc_version : Z;
  pc_prompt : Any;
  pc_config : Any;
  pc_labels : list string }.

(** The keyword arguments of [lf.create_prompt], unpacked from [prompt_data]; the key
    [config] is present only when one of the two branches set it. *)
Record PromptData := {
  pd_name : string;
  pd_type : string;
  pd_prompt : Any;
  pd_labels : list string;
  pd_config : option (gmap string Any) }.

Record RolloutPhase := {
  phase_percentage : Z;
  phase_duration : string;
  phase_labels : list string }.

(** The dictionary literal bound to [rollout_plan]. *)
Record RolloutPlan := {
  plan_strategy : string;
  phases : list RolloutPhase;
  plan_evaluation_metric : string;
  plan_threshold : float;
  rollback_on_failure : bool }.

Record OptimizeResponse := {
  version : Z;
  resp_labels : list string;
  resp_optimized_prompt : Any;
  resp_rollout_plan : option RolloutPlan;
  metrics : option (gmap string float) }.

(** The dictionary [get_prompt] returns. *)
Record PromptView := {
  view_name : string;
  view_version : Z;
  view_prompt : Any;
  view_config : Any;
  view_labels : list string }.

(** The dictionary [promote_rollout] returns. *)
Record Promotion := {
  message : string;
  promoted_version : Z;
  promoted_labels : list string }.

(** An exception raised by the Langfuse client and caught by
    [except Exception as e]: its class name and [str(e)]. *)
Record Exception := {
  exc_class : string;
  str : string }.

Record HTTPException := {
  status_code : Z;
  detail : string }.

(** A request rejected at the boundary: the field and the violated
    constraint. *)
Record ValidationError := {
  loc : list string;
  constraint : string }.

(** An exception in flight inside [optimize_prompt]'s outer [try]: the
    handlers tell [HTTPException] from the rest. *)
Inductive PyExc : Type :=
| Http (h : HTTPException)
| Other (e : Exception).

(** ** Programs over the registry client

    An endpoint body is a tree: it returns, raises, or calls the Langfuse
    client and goes on with what the client answers.  [E] is the type of
    the exceptions that can leave the program. *)

Module lf.
Inductive call : Type :=
| create_prompt (prompt_data : PromptData)
| get_prompt (name label : string).
End lf.

Inductive Answer : Type :=
| Returned (p : PromptClient)
| Raised (e : Exception).

Inductive Prog (E A : Type) : Type :=
| Return (a : A)
| Raise (e : E)
| Call (c : lf.call) (k : Answer -> Prog E A).

Arguments Return {E A} a.
Arguments Raise {E A} e.
Arguments Call {E A} c k.

(** A client call in statement position: a raised exception propagates. *)
Definition call (c : lf.call) : Prog Exception PromptClient :=
  Call c (fun ans =>
            match ans with
            | Returned p => Return p
            | Raised e => Raise e
            end).

Fixpoint bind {E A B} (p : Prog E A) (f : A -> Prog E B) : Prog E B :=
  match p with
  | Return a => f a
  | Raise e => Raise e
  | Call c k => Call c (fun ans => bind (k ans) f)
  end.

(** [try: body / except ... as e: handler e] *)
Fixpoint try_except {E E' A} (body : Prog E A) (handler : E -> Prog E' A)
  : Prog E' A :=
  match body with
  | Return a => Return a
  | Raise e => handler e
  | Call c k => Call c (fun ans => try_except (k ans) handler)
  end.

Notation "x <- p ;; q" := (bind p (fun x => q))
  (at level 100, p at next level, right associativity).

(** ** The optimization step ([optimize_prompt], lines 113-123) *)

Definition newline : string := String (ascii_of_nat 10) EmptyString.

(** The text the clarity branch appends. *)
Definition clarity_suffix : string :=
  newline +:+ newline +:+ "Please provide clear, structured responses.".

(** The clarity branch, with its [isinstance] guard. *)
Definition clarity (optimized_prompt : Any) : Any :=
  match optimized_prompt with
  | AStr s => AStr (s +:+ clarity_suffix)
  | other => other
  end.

(** The token-reduction branch, with its [isinstance] guard. *)
Definition concise (optimized_prompt : Any) : Any :=
  match optimized_prompt with
  | AStr s => AStr (Str.replace " very " " " (Str.replace "Please " "" s))
  | other => other
  end.

Definition optimized_prompt (request : OptimizeRequest) : Any :=
  let optimized_prompt := prompt (draft request) in
  if Str.contains "clarity" (Str.lower (objective request)) then
    clarity optimized_prompt
  else if Str.contains "concise" (Str.lower (objective request))
          || Str.contains "reduce tokens" (Str.lower (objective request)) then
    concise optimized_prompt
  else optimized_prompt.

(** ** The rollout plan ([optimize_prompt], lines 126-138) *)

Definition rollout_plan (request : OptimizeRequest) : option RolloutPlan :=
  match rollout request with
  | Some rollout =>
      Some {| plan_strategy := strategy rollout;
              phases :=
                [ {| phase_percentage := percentage rollout;
                     phase_duration := "1h";
                     phase_labels := ["canary"] |};
                  {| phase_percentage := 50;
                     phase_duration := "4h";
                     phase_labels := ["staging"] |};
                  {| phase_percentage := 100;
                     phase_duration := "stable";
                     phase_labels := labels request |} ];
              plan_evaluation_metric := evaluation_metric rollout;
              plan_threshold := threshold rollout;
              rollback_on_failure := true |}
  | None => None
  end.

(** ** The registry payload (lines 141-154) *)

Definition opt_any {A} (f : A -> Any) (o : option A) : Any :=
  match o with Some a => f a | None => ANone end.

(** [config.dict()] *)
Definition PromptConfig_dict (c : PromptConfig) : gmap string Any :=
  <["temperature" := opt_any AFloat (temperature c)]>
    (<["max_tokens" := opt_any AInt (max_tokens c)]>
       (<["model" := opt_any AStr (model c)]> ∅)).

(** Truth value of an optional string: [None] and the empty string are
    false. *)
Definition truthy (o : option string) : option string :=
  match o with
  | Some EmptyString => None
  | other => other
  end.

(** In [{"commitMessage": m, **d}] the entries of [d] come last and win. *)
Definition prompt_data (request : OptimizeRequest) : PromptData :=
  {| pd_name := name request;
     pd_type := type (draft request);
     pd_prompt := optimized_prompt request;
     pd_labels := labels request;
     pd_config :=
       match truthy (commit_message request) with
       | Some m =>
           Some (match config (draft request) with
                 | Some c => PromptConfig_dict c
                 | None => ∅
                 end ∪ {[ "commitMessage" := AStr m ]})
       | None =>
           match config (draft request) with
           | Some c => Some (PromptConfig_dict c)
           | None => None
           end
       end |}.

(** The simulated metrics; the response model stores the iteration count
    as a float. *)
#[warnings="-inexact-float"]
Definition simulated_metrics : gmap string float :=
  <["token_reduction" := 0.15%float]>
    (<["clarity_score" := 0.92%float]>
       (<["coherence_score" := 0.89%float]>
          (<["optimization_iterations" := 3%float]> ∅))).

(** ** The endpoints

    In [optimize_prompt] the inner handler turns whatever the client
    raises into a 500; the outer one lets an [HTTPException] through and
    turns anything else into a 500 of its own. *)

Definition optimize_prompt (request : OptimizeRequest)
  : Prog HTTPException OptimizeResponse :=
  try_except
    (try_except
       (created <- call (lf.create_prompt (prompt_data request)) ;;
        Return {| version := pc_version created;
                  resp_labels := labels request;
                  resp_optimized_prompt := optimized_prompt request;
                  resp_rollout_plan := rollout_plan request;
                  metrics := Some simulated_metrics |})
       (fun langfuse_error =>
          Raise (Http {| status_code := 500;
                         detail := "Failed to store prompt in Langfuse: "
                                   +:+ str langfuse_error |})))
    (fun e =>
       match e with
       | Http h => Raise h
       | Other e =>
           Raise {| status_code := 500;
                    detail := "Prompt optimization failed: " +:+ str e |}
       end).

(** [label] is a query parameter: the string sent, or "production" when
    none is sent. *)
Definition get_prompt (name label : string) : Prog HTTPException PromptView :=
  try_except
    (prompt <- call (lf.get_prompt name label) ;;
     Return {| view_name := name;
               view_version := pc_version prompt;
               view_prompt := pc_prompt prompt;
               view_config := pc_config prompt;
               view_labels := pc_labels prompt |})
    (fun e =>
       Raise {| status_code := 404;
                detail := "Prompt not found: " +:+ name
                          +:+ " (label: " +:+ label +:+ ")" |}).

(** The body reads the prompt under [from_label] and builds the answer;
    the comments in the source leave the label update to Langfuse, and no
    call is made for it. *)
Definition promote_rollout (name from_label to_label : string)
  : Prog HTTPException Promotion :=
  try_except
    (prompt <- call (lf.get_prompt name from_label) ;;
     Return {| message := "Prompt " +:+ name +:+ " promoted from "
                          +:+ from_label +:+ " to " +:+ to_label;
               promoted_version := pc_version prompt;
               promoted_labels := [to_label] |})
    (fun e =>
       Raise {| status_code := 500;
                detail := "Failed to promote prompt: " +:+ str e |}).

(** ** Request validation at the boundary

    FastAPI builds the [OptimizeRequest] model before the endpoint body
    runs; the only [Field] constraints in the models are [ge=0] and
    [le=100] on [RolloutConfig.percentage].  [PromptDraft.prompt] is
    typed [Any] and is not checked against [PromptDraft.type]. *)

Definition RolloutConfig_validate (c : RolloutConfig)
  : ValidationError + RolloutConfig :=
  if percentage c <? 0 then
    inl {| loc := ["rollout"; "percentage"]; constraint := "ge=0" |}
  else if 100 <? percentage c then
    inl {| loc := ["rollout"; "percentage"]; constraint := "le=100" |}
  else inr c.

Definition OptimizeRequest_validate (body : OptimizeRequest)
  : ValidationError + OptimizeRequest :=
  match rollout body with
  | None => inr body
  | Some c =>
      match RolloutConfig_validate c with
      | inl e => inl e
      | inr _ => inr body
      end
  end.

(** [POST /optimize]: validation, then the endpoint body. *)
Definition post_optimize (body : OptimizeRequest)
  : ValidationError + Prog HTTPException OptimizeResponse :=
  match OptimizeRequest_validate body with
  | inl e => inl e
  | inr request => inr (optimize_prompt request)
  end.

(** ** Running a program against a registry client *)

(** What the endpoints need from the object [lf]: two operations on some
    registry state. *)
Record Langfuse (R : Type) := {
  do_create_prompt : PromptData -> R -> Answer * R;
  do_get_prompt : string -> string -> R -> Answer * R }.

Arguments do_create_prompt {R} _ _ _.
Arguments do_get_prompt {R} _ _ _ _.

Definition answer {R} (client : Langfuse R) (c : lf.call) (r : R) : Answer * R :=
  match c with
  | lf.create_prompt d => do_create_prompt client d r
  | lf.get_prompt n l => do_get_prompt client n l r
  end.

(** The result of a run: what the endpoint returned or raised, the
    registry state afterwards, and the client calls made, in order. *)
Record Run (R E A : Type) := {
  outcome : E + A;
  registry : R;
  calls : list lf.call }.

Arguments outcome {R E A} _.
Arguments registry {R E A} _.
Arguments calls {R E A} _.

Fixpoint run {R E A} (client : Langfuse R) (p : Prog E A) (r : R) : Run R E A :=
  match p with
  | Return a => {| outcome := inr a; registry := r; calls := [] |}
  | Raise e => {| outcome := inl e; registry := r; calls := [] |}
  | Call c k =>
      let rest := run client (k (fst (answer client c r))) (snd (answer client c r)) in
      {| outcome := outcome rest;
         registry := registry rest;
         calls := c :: calls rest |}
  end.

(** ** A registry *)

Record PromptVersion := {
  pv_name : string;
  pv_version : Z;
  pv_labels : list string;
  pv_type : string;
  pv_prompt : Any;
  pv_config : Any }.

(** Modelled from the spec: the external prompt registry behind the
    Langfuse client, which is not part of the service's source.  It keeps
    the versions of every prompt; [get] answers with the version of the
    name that carries the label and raises when there is none; [create]
    stores a new version under the next number of the name, and a label
    stays on one version per name; every operation raises when the
    backend is failing. *)
Record Registry := {
  versions : list PromptVersion;
  failure : option Exception }.

Definition carries (name label : string) (v : PromptVersion) : bool :=
  String.eqb (pv_name v) name && existsb (String.eqb label) (pv_labels v).

(** Some version of [name] carries [label]. *)
Definition labelled (reg : Registry) (name label : string) : bool :=
  existsb (carries name label) (versions reg).

Definition client_of (v : PromptVersion) : PromptClient :=
  {| pc_version := pv_version v;
     pc_prompt := pv_prompt v;
     pc_config := pv_config v;
     pc_labels := pv_labels v |}.

Definition registry_get (name label : string) (reg : Registry) : Answer * Registry :=
  match failure reg with
  | Some e => (Raised e, reg)
  | None =>
      match List.find (carries name label) (versions reg) with
      | Some v => (Returned (client_of v), reg)
      | None =>
          (Raised {| exc_class := "NotFoundError";
                     str := "no version of " +:+ name +:+ " carries " +:+ label |},
           reg)
      end
  end.

Definition next_version (name : string) (reg : Registry) : Z :=
  1 + fold_right Z.max 0
        (map pv_version
           (List.filter (fun v => String.eqb (pv_name v) name) (versions reg))).

(** Take the labels [ls] off a version of [name]. *)
Definition unlabel (name : string) (ls : list string) (v : PromptVersion)
  : PromptVersion :=
  if String.eqb (pv_name v) name then
    {| pv_name := pv_name v;
       pv_version := pv_version v;
       pv_labels :=
         List.filter (fun l => negb (existsb (String.eqb l) ls)) (pv_labels v);
       pv_type := pv_type v;
       pv_prompt := pv_prompt v;
       pv_config := pv_config v |}
  else v.

Definition registry_create (d : PromptData) (reg : Registry) : Answer * Registry :=
  match failure reg with
  | Some e => (Raised e, reg)
  | None =>
      let v := {| pv_name := pd_name d;
                  pv_version := next_version (pd_name d) reg;
                  pv_labels := pd_labels d;
                  pv_type := pd_type d;
                  pv_prompt := pd_prompt d;
                  pv_config :=
                    match pd_config d with
                    | Some m => ADict (map_to_list m)
                    | None => ANone
                    end |} in
      (Returned (client_of v),
       {| versions := v :: map (unlabel (pd_name d) (pd_labels d)) (versions reg);
          failure := None |})
  end.

Definition langfuse : Langfuse Registry :=
  {| do_create_prompt := registry_create;
     do_get_prompt := registry_get |}.

(** ** Example values *)

(** The request of the end-to-end example. *)
Definition greeting_request : OptimizeRequest :=
  {| name := "greeting";
     current_prompt := None;
     draft := {| type := "text"; prompt := AStr "Please help."; config := None |};
     objective := "reduce tokens";
     commit_message := None;
     labels := ["staging"];
     rollout := None |}.

Definition empty_registry : Registry := {| versions := []; failure := None |}.

(** ** Vocabulary and example values of the properties *)

(** A text draft: declared [text], with a string for content. *)
Definition text_draft (d : PromptDraft) (content : string) : Prop :=
  type d = "text" /\ prompt d = AStr content.

Definition clarity_request : OptimizeRequest :=
  {| name := "greeting";
     current_prompt := None;
     draft := {| type := "text"; prompt := AStr "Please help."; config := None |};
     objective := "Improve CLARITY and reduce tokens";
     commit_message := None;
     labels := ["staging"];
     rollout := None |}.

(** [l] never goes down from one element to the next. *)
Fixpoint nondecreasing (l : list Z) : bool :=
  match l with
  | a :: (b :: _) as t => (a <=? b) && nondecreasing t
  | _ => true
  end.

Definition percentages (plan : RolloutPlan) : list Z :=
  map phase_percentage (phases plan).

Definition with_rollout (c : RolloutConfig) (ls : list string) : OptimizeRequest :=
  {| name := "greeting";
     current_prompt := None;
     draft := {| type := "text"; prompt := AStr "Please help."; config := None |};
     objective := "reduce tokens";
     commit_message := None;
     labels := ls;
     rollout := Some c |}.

#[warnings="-inexact-float"]
Definition rollout_at (p : Z) : RolloutConfig :=
  {| strategy := "gradual";
     percentage := p;
     evaluation_metric := "success_rate";
     threshold := 0.95%float |}.

(** A chat message. *)
Definition chat_message (role content : string) : Any :=
  ADict [("role", AStr role); ("content", AStr content)].

(** What C4 asks of a chat draft, in the claim's words: the rule is
    applied to the content of each message, roles and order untouched. *)
Definition on_content (rule : Any -> Any) (message : Any) : Any :=
  match message with
  | ADict fields =>
      ADict (map (fun kv => if String.eqb (fst kv) "content"
                            then (fst kv, rule (snd kv)) else kv) fields)
  | other => other
  end.

Definition per_message (rule : Any -> Any) (content : Any) : Any :=
  match content with
  | AList messages => AList (map (on_content rule) messages)
  | other => other
  end.

(** The content has the shape its declared type announces: a string for
    [text], a list for [chat]. *)
Definition well_formed (d : PromptDraft) : bool :=
  match prompt d with
  | AStr _ => String.eqb (type d) "text"
  | AList _ => String.eqb (type d) "chat"
  | _ => false
  end.

Definition request_of (d : PromptDraft) (o : string) : OptimizeRequest :=
  {| name := "greeting";
     current_prompt := None;
     draft := d;
     objective := o;
     commit_message := None;
     labels := ["staging"];
     rollout := None |}.

Definition chat_draft : PromptDraft :=
  {| type := "chat";
     prompt := AList [chat_message "system" "Please be very brief.";
                      chat_message "user" "Please help."];
     config := None |}.

(** Declared [chat], content a plain string. *)
Definition chat_with_string : PromptDraft :=
  {| type := "chat"; prompt := AStr "Please help."; config := None |}.

(** Declared [text], content a message list. *)
Definition text_with_messages : PromptDraft :=
  {| type := "text";
     prompt := AList [chat_message "user" "Please help."];
     config := None |}.

(** The operation surfaced not-found. *)
Definition not_found {A} (o : HTTPException + A) : bool :=
  match o with
  | inl h => status_code h =? 404
  | inr _ => false
  end.

Definition greeting_v1 (ls : list string) : PromptVersion :=
  {| pv_name := "greeting";
     pv_version := 1;
     pv_labels := ls;
     pv_type := "text";
     pv_prompt := AStr "help.";
     pv_config := ANone |}.

(** A registry whose backend is unreachable. *)
Definition unreachable (vs : list PromptVersion) : Registry :=
  {| versions := vs;
     failure := Some {| exc_class := "ConnectionError";
                        str := "connection refused" |} |}.

(** ** The health endpoint and further vocabulary *)

(** [os.getenv(key, default)] on the process environment. *)
Definition getenv (environ : gmap string string) (key default : string) : string :=
  match environ !! key with
  | Some v => v
  | None => default
  end.

(** The module-level [langfuse_url]. *)
Definition langfuse_url (environ : gmap string string) : string :=
  getenv environ "LANGFUSE_BASE_URL" "http://langfuse-web:3000".

(** The dictionary [health_check] returns. *)
Record Health := {
  status : string;
  service : string;
  health_langfuse_url : string }.

Definition health_check (environ : gmap string string) : Prog HTTPException Health :=
  Return {| status := "healthy";
            service := "prompt-optimizer";
            health_langfuse_url := langfuse_url environ |}.

(** The request sent again with the optimized prompt as its draft. *)
Definition resubmit (request : OptimizeRequest) : OptimizeRequest :=
  {| name := name request;
     current_prompt := current_prompt request;
     draft := {| type := type (draft request);
                 prompt := optimized_prompt request;
                 config := config (draft request) |};
     objective := objective request;
     commit_message := commit_message request;
     labels := labels request;
     rollout := rollout request |}.

(** The request with another [current_prompt]. *)
Definition with_current_prompt (cp : option string) (request : OptimizeRequest)
  : OptimizeRequest :=
  {| name := name request;
     current_prompt := cp;
     draft := draft request;
     objective := objective request;
     commit_message := commit_message request;
     labels := labels request;
     rollout := rollout request |}.

(** [s.isascii()]: every character is below 128.  On such a string
    [Str.lower] is [str.lower]. *)
Fixpoint isascii (s : string) : bool :=
  match s with
  | EmptyString => true
  | String c t => Nat.ltb (nat_of_ascii c) 128 && isascii t
  end.

(** A config none of whose fields was sent: the defaults of the model. *)
#[warnings="-inexact-float"]
Definition PromptConfig_defaults : PromptConfig :=
  {| temperature := Some 0.7%float;
     max_tokens := Some 1000;
     model := Some "gpt-4" |}.

(** The objective names a conciseness keyword, in any case. *)
Definition asks_concise (o : string) : Prop :=
  Str.mentions "concise" o \/ Str.mentions "reduce tokens" o.

(** The request with another rollout configuration, or none. *)
Definition with_rollout_config (ro : option RolloutConfig) (request : OptimizeRequest)
  : OptimizeRequest :=
  {| name := name request;
     current_prompt := current_prompt request;
     draft := draft request;
     objective := objective request;
     commit_message := commit_message request;
     labels := labels request;
     rollout := ro |}.

(** * Properties *)

(** ** Strings *)

Section StringFacts.

Lemma lower_app (a b : string) :
  Str.lower (a +:+ b) = Str.lower a +:+ Str.lower b.
Proof.
  induction a as [|c a IH]; simpl; [reflexivity|].
  now rewrite IH.
Qed.

Lemma startswith_app (w post : string) : Str.startswith w (w +:+ post) = true.
Proof.
  induction w as [|c w IH]; simpl; [reflexivity|].
  now rewrite Ascii.eqb_refl, IH.
Qed.

Lemma contains_app (w pre post : string) :
  Str.contains w (pre +:+ w +:+ post) = true.
Proof.
  induction pre as [|c pre IH].
  - simpl. destruct (w +:+ post) eqn:E; simpl; rewrite <- ?E;
      now rewrite startswith_app.
  - simpl. simpl in IH. rewrite IH. apply orb_true_r.
Qed.

(** A prefix of [lower s] comes from a prefix of [s]. *)
Lemma startswith_lower_split (w s : string) :
  Str.startswith w (Str.lower s) = true ->
  exists mid post, s = mid +:+ post /\ Str.lower mid = w.
Proof.
  revert s. induction w as [|a w IH]; intros s H.
  - exists EmptyString, s. split; reflexivity.
  - destruct s as [|b s]; simpl in H; [discriminate|].
    apply andb_true_iff in H as [Hab Hw].
    apply Ascii.eqb_eq in Hab.
    destruct (IH s Hw) as (mid & post & -> & Hmid).
    exists (String b mid), post. split; [reflexivity|].
    simpl. now rewrite Hmid, Hab.
Qed.

(** The test the code runs, [w in s.lower()], is "[s] contains [w] in any
    case". *)
Lemma contains_lower_mentions (w s : string) :
  Str.contains w (Str.lower s) = true <-> Str.mentions w s.
Proof.
  split.
  - induction s as [|c s IH]; intros H.
    + simpl in H. rewrite orb_false_r in H.
      destruct (startswith_lower_split w EmptyString H) as (mid & post & E & L).
      exists EmptyString, mid, post. split; [exact E | exact L].
    + cbn [Str.lower Str.contains] in H.
      apply orb_true_iff in H as [H|H].
      * destruct (startswith_lower_split w (String c s) H) as (mid & post & E & L).
        exists EmptyString, mid, post. split; [exact E | exact L].
      * destruct (IH H) as (pre & mid & post & -> & L).
        exists (String c pre), mid, post. split; [reflexivity | exact L].
  - intros (pre & mid & post & -> & <-).
    rewrite !lower_app. apply contains_app.
Qed.

(** [replace] leaves a text without occurrence as it is. *)
Lemma replace_absent (old new s : string) :
  old <> EmptyString ->
  Str.contains old s = false ->
  Str.replace old new s = s.
Proof.
  intros Hold. destruct old as [|a old]; [congruence|].
  unfold Str.replace. induction s as [|c s IH]; intros H; [reflexivity|].
  cbn [Str.contains] in H. apply orb_false_iff in H as [Hs Hc].
  cbn [Str.replace_scan]. rewrite Hs. now rewrite (IH Hc).
Qed.

Lemma replace_scan_skip (w old new rest : string) :
  Str.replace_scan (String.length w) old new (w +:+ rest)
  = Str.replace_scan O old new rest.
Proof.
  induction w as [|c w IH]; [reflexivity|].
  destruct rest; simpl; exact IH.
Qed.

(** [replace] rewrites a leading occurrence and goes on after it. *)
Lemma replace_leading (old new rest : string) :
  old <> EmptyString ->
  Str.replace old new (old +:+ rest) = new +:+ Str.replace old new rest.
Proof.
  intros Hold. destruct old as [|a old]; [congruence|].
  unfold Str.replace.
  change (String a old +:+ rest) with (String a (old +:+ rest)).
  cbn [Str.replace_scan].
  change (String a (old +:+ rest)) with (String a old +:+ rest).
  rewrite startswith_app. cbn [String.length Nat.pred].
  now rewrite replace_scan_skip.
Qed.

Example lower_ex : Str.lower "Improve CLARITY!" = "improve clarity!".
Proof. reflexivity. Qed.

Example replace_ex :
  Str.replace " very " " " (Str.replace "Please " "" "Please be very very brief. Please ")
  = "be very brief. ".
Proof. reflexivity. Qed.

Example replace_overlap : Str.replace "aa" "b" "aaaaa" = "bba".
Proof. reflexivity. Qed.

Example replace_empty : Str.replace "" "-" "abc" = "-a-b-c-".
Proof. reflexivity. Qed.

End StringFacts.

(** ** The optimization step *)

Section Engine.

Variable request : OptimizeRequest.

Lemma optimized_prompt_clarity :
  Str.mentions "clarity" (objective request) ->
  optimized_prompt request = clarity (prompt (draft request)).
Proof.
  intros H. apply contains_lower_mentions in H.
  unfold optimized_prompt. now rewrite H.
Qed.

(** The response of a successful call carries the optimized prompt. *)
Lemma optimize_prompt_returns {R} (client : Langfuse R) (r r' : R) created :
  do_create_prompt client (prompt_data request) r = (Returned created, r') ->
  run client (optimize_prompt request) r
  = {| outcome := inr {| version := pc_version created;
                         resp_labels := labels request;
                         resp_optimized_prompt := optimized_prompt request;
                         resp_rollout_plan := rollout_plan request;
                         metrics := Some simulated_metrics |};
       registry := r';
       calls := [lf.create_prompt (prompt_data request)] |}.
Proof.
  intros H. cbn. now rewrite H.
Qed.

Lemma optimize_prompt_raises {R} (client : Langfuse R) (r r' : R) e :
  do_create_prompt client (prompt_data request) r = (Raised e, r') ->
  run client (optimize_prompt request) r
  = {| outcome := inl {| status_code := 500;
                         detail := "Failed to store prompt in Langfuse: " +:+ str e |};
       registry := r';
       calls := [lf.create_prompt (prompt_data request)] |}.
Proof.
  intros H. cbn. now rewrite H.
Qed.

(** Whatever the client answers, the operation makes one call, a create
    with the payload. *)
Lemma optimize_prompt_calls {R} (client : Langfuse R) (r : R) :
  calls (run client (optimize_prompt request) r)
  = [lf.create_prompt (prompt_data request)].
Proof.
  cbn. destruct (do_create_prompt client (prompt_data request) r) as [[p|e] r'];
    reflexivity.
Qed.

End Engine.

(** C1. For a text draft with content [s] and an objective that contains
    "clarity" in any case, the optimized content is [s] followed by the
    fixed clarifying suffix of the source: two line feeds (character 10)
    and the sentence "Please provide clear, structured responses.".  It
    is what the registry receives and, when the registry accepts the
    write, what the response carries. *)
Theorem clarity_appends_suffix (request : OptimizeRequest) (s : string) :
  text_draft (draft request) s ->
  Str.mentions "clarity" (objective request) ->
  optimized_prompt request
  = AStr (s +:+ String "010" (String "010"
                 "Please provide clear, structured responses."))
  /\ pd_prompt (prompt_data request)
     = AStr (s +:+ String "010" (String "010"
                    "Please provide clear, structured responses."))
  /\ forall R (client : Langfuse R) (r r' : R) created,
      do_create_prompt client (prompt_data request) r = (Returned created, r') ->
      exists response,
        outcome (run client (optimize_prompt request) r) = inr response
        /\ resp_optimized_prompt response
           = AStr (s +:+ String "010" (String "010"
                          "Please provide clear, structured responses.")).
Proof.
  intros [_ Hs] Hobj.
  assert (E : optimized_prompt request
              = AStr (s +:+ String "010" (String "010"
                             "Please provide clear, structured responses."))).
  { rewrite optimized_prompt_clarity by assumption. now rewrite Hs. }
  split; [exact E|]. split; [exact E|].
  intros R client r r' created Hc.
  rewrite (optimize_prompt_returns request client r r' created Hc).
  eexists. split; [reflexivity|]. exact E.
Qed.

Lemma clarity_request_mentions :
  Str.mentions "clarity" (objective clarity_request).
Proof.
  exists "Improve ", "CLARITY", " and reduce tokens". split; reflexivity.
Defined.

Lemma clarity_appends_suffix_witness :
  optimized_prompt clarity_request
  = AStr ("Please help." +:+ String "010" (String "010"
                               "Please provide clear, structured responses."))
  /\ pd_prompt (prompt_data clarity_request)
     = AStr ("Please help." +:+ String "010" (String "010"
                                  "Please provide clear, structured responses."))
  /\ forall R (client : Langfuse R) (r r' : R) created,
      do_create_prompt client (prompt_data clarity_request) r = (Returned created, r') ->
      exists response,
        outcome (run client (optimize_prompt clarity_request) r) = inr response
        /\ resp_optimized_prompt response
           = AStr ("Please help." +:+ String "010" (String "010"
                                        "Please provide clear, structured responses.")).
Proof.
  apply (clarity_appends_suffix clarity_request "Please help.").
  - split; reflexivity.
  - exact clarity_request_mentions.
Defined.

(** C10. When the objective contains both "clarity" and a conciseness
    keyword ("concise" or "reduce tokens"), in any case, only the clarity
    branch runs: the result is the clarity result on the submitted
    content, with no substitution made in it. *)
Theorem clarity_takes_precedence (request : OptimizeRequest) :
  Str.mentions "clarity" (objective request) ->
  Str.mentions "concise" (objective request)
  \/ Str.mentions "reduce tokens" (objective request) ->
  optimized_prompt request = clarity (prompt (draft request))
  /\ forall s, prompt (draft request) = AStr s ->
       optimized_prompt request = AStr (s +:+ clarity_suffix).
Proof.
  intros Hc _.
  pose proof (optimized_prompt_clarity request Hc) as E.
  split; [exact E|].
  intros s Hs. now rewrite E, Hs.
Qed.

Lemma clarity_takes_precedence_witness :
  optimized_prompt clarity_request = clarity (AStr "Please help.")
  /\ forall s, AStr "Please help." = AStr s ->
       optimized_prompt clarity_request = AStr (s +:+ clarity_suffix).
Proof.
  apply (clarity_takes_precedence clarity_request).
  - exact clarity_request_mentions.
  - right. exists "Improve CLARITY and ", "reduce tokens", "". split; reflexivity.
Defined.

(** On the same content the two branches differ, and the combined
    objective gives the clarity one. *)
Example clarity_not_concise :
  optimized_prompt clarity_request
  = AStr ("Please help." +:+ clarity_suffix)
  /\ concise (clarity (AStr "Please help.")) <> optimized_prompt clarity_request
  /\ clarity (concise (AStr "Please help.")) <> optimized_prompt clarity_request.
Proof. repeat split; vm_compute; congruence. Qed.

(** ** The rollout plan *)

Lemma RolloutConfig_validate_ok (c : RolloutConfig) :
  0 <= percentage c <= 100 -> RolloutConfig_validate c = inr c.
Proof.
  intros [Hlo Hhi]. unfold RolloutConfig_validate.
  destruct (Z.ltb_spec (percentage c) 0); [lia|].
  destruct (Z.ltb_spec 100 (percentage c)); [lia|].
  reflexivity.
Qed.

Lemma RolloutConfig_validate_inv (c c' : RolloutConfig) :
  RolloutConfig_validate c = inr c' -> c' = c /\ 0 <= percentage c <= 100.
Proof.
  unfold RolloutConfig_validate.
  destruct (Z.ltb_spec (percentage c) 0); [discriminate|].
  destruct (Z.ltb_spec 100 (percentage c)); [discriminate|].
  intros [= <-]. split; [reflexivity | lia].
Qed.

(** C2. For a valid rollout configuration [C] and labels [L] the request
    is accepted and the plan has exactly three phases, in this order:
    [C]'s percentage labelled canary, 50 labelled staging, and 100 with
    duration "stable" labelled [L]; [rollback_on_failure] is true and the
    metric and the threshold are those of [C]. *)
Theorem rollout_plan_three_phases (request : OptimizeRequest) (C : RolloutConfig) :
  rollout request = Some C ->
  0 <= percentage C <= 100 ->
  post_optimize request = inr (optimize_prompt request)
  /\ exists plan,
      rollout_plan request = Some plan
      /\ length (phases plan) = 3%nat
      /\ phases plan
         = [ {| phase_percentage := percentage C;
                phase_duration := "1h";
                phase_labels := ["canary"] |};
             {| phase_percentage := 50;
                phase_duration := "4h";
                phase_labels := ["staging"] |};
             {| phase_percentage := 100;
                phase_duration := "stable";
                phase_labels := labels request |} ]
      /\ rollback_on_failure plan = true
      /\ plan_evaluation_metric plan = evaluation_metric C
      /\ plan_threshold plan = threshold C.
Proof.
  intros HC Hrange. split.
  - unfold post_optimize, OptimizeRequest_validate.
    now rewrite HC, (RolloutConfig_validate_ok C Hrange).
  - unfold rollout_plan. rewrite HC. eexists. split; [reflexivity|].
    cbn. repeat split.
Qed.

Lemma rollout_plan_three_phases_witness :
  post_optimize (with_rollout (rollout_at 10) ["production"])
  = inr (optimize_prompt (with_rollout (rollout_at 10) ["production"]))
  /\ exists plan,
      rollout_plan (with_rollout (rollout_at 10) ["production"]) = Some plan
      /\ length (phases plan) = 3%nat
      /\ phases plan
         = [ {| phase_percentage := 10;
                phase_duration := "1h";
                phase_labels := ["canary"] |};
             {| phase_percentage := 50;
                phase_duration := "4h";
                phase_labels := ["staging"] |};
             {| phase_percentage := 100;
                phase_duration := "stable";
                phase_labels := ["production"] |} ]
      /\ rollback_on_failure plan = true
      /\ plan_evaluation_metric plan = "success_rate"
      /\ plan_threshold plan = threshold (rollout_at 10).
Proof.
  apply (rollout_plan_three_phases
           (with_rollout (rollout_at 10) ["production"]) (rollout_at 10)).
  - reflexivity.
  - simpl. lia.
Defined.

(** C3, as stated, fails: an initial percentage of 80 is valid, and the
    plan then goes 80, 50, 100; the phases before the final one go down,
    and so does the whole sequence. *)
Lemma percentages_can_decrease :
  post_optimize (with_rollout (rollout_at 80) ["production"])
  = inr (optimize_prompt (with_rollout (rollout_at 80) ["production"]))
  /\ exists plan,
      rollout_plan (with_rollout (rollout_at 80) ["production"]) = Some plan
      /\ percentages plan = [80; 50; 100]
      /\ nondecreasing (removelast (percentages plan)) = false
      /\ nondecreasing (percentages plan) = false.
Proof.
  split; [reflexivity|].
  eexists. split; [reflexivity|]. repeat split.
Qed.

(** C3, amended. For a valid rollout configuration the percentages are
    the initial one, 50 and 100: every one lies in [0,100], the final
    phase is at 100, and the sequence is non-decreasing exactly when the
    initial percentage is at most 50. *)
Theorem percentages_nondecreasing_iff (request : OptimizeRequest) (C : RolloutConfig) :
  rollout request = Some C ->
  0 <= percentage C <= 100 ->
  exists plan,
    rollout_plan request = Some plan
    /\ percentages plan = [percentage C; 50; 100]
    /\ Forall (fun p => 0 <= p <= 100) (percentages plan)
    /\ last (percentages plan) = Some 100
    /\ (nondecreasing (percentages plan) = true <-> percentage C <= 50)
    /\ (nondecreasing (removelast (percentages plan)) = true <-> percentage C <= 50).
Proof.
  intros HC Hrange. unfold rollout_plan. rewrite HC.
  eexists. split; [reflexivity|]. cbn.
  split; [reflexivity|].
  split; [repeat constructor; lia|].
  split; [reflexivity|].
  rewrite !andb_true_r.
  split; apply Z.leb_le.
Qed.

Lemma percentages_nondecreasing_iff_witness :
  exists plan,
    rollout_plan (with_rollout (rollout_at 10) ["production"]) = Some plan
    /\ percentages plan = [10; 50; 100]
    /\ Forall (fun p => 0 <= p <= 100) (percentages plan)
    /\ last (percentages plan) = Some 100
    /\ (nondecreasing (percentages plan) = true <-> 10 <= 50)
    /\ (nondecreasing (removelast (percentages plan)) = true <-> 10 <= 50).
Proof.
  apply (percentages_nondecreasing_iff
           (with_rollout (rollout_at 10) ["production"]) (rollout_at 10)).
  - reflexivity.
  - simpl. lia.
Defined.

(** C7. A rollout configuration whose percentage lies outside [0,100] is
    rejected with a validation error on that field; the request never
    reaches the endpoint body, so no plan is built and the registry is
    not called. *)
Theorem percentage_out_of_range_rejected (body : OptimizeRequest) (C : RolloutConfig) :
  rollout body = Some C ->
  percentage C < 0 \/ 100 < percentage C ->
  exists e : ValidationError,
    RolloutConfig_validate C = inl e
    /\ loc e = ["rollout"; "percentage"]
    /\ OptimizeRequest_validate body = inl e
    /\ post_optimize body = inl e.
Proof.
  intros HC Hout.
  unfold post_optimize, OptimizeRequest_validate, RolloutConfig_validate.
  rewrite HC.
  destruct (Z.ltb_spec (percentage C) 0).
  - eexists. repeat split.
  - destruct (Z.ltb_spec 100 (percentage C)); [|lia].
    eexists. repeat split.
Qed.

Lemma percentage_out_of_range_rejected_witness :
  exists e : ValidationError,
    RolloutConfig_validate (rollout_at 150) = inl e
    /\ loc e = ["rollout"; "percentage"]
    /\ OptimizeRequest_validate (with_rollout (rollout_at 150) ["staging"]) = inl e
    /\ post_optimize (with_rollout (rollout_at 150) ["staging"]) = inl e.
Proof.
  apply (percentage_out_of_range_rejected
           (with_rollout (rollout_at 150) ["staging"]) (rollout_at 150)).
  - reflexivity.
  - right. simpl. lia.
Defined.

(** ** Drafts whose content is not a string *)

(** The step looks at the content and the objective only. *)
Lemma optimized_prompt_ext (r1 r2 : OptimizeRequest) :
  prompt (draft r1) = prompt (draft r2) ->
  objective r1 = objective r2 ->
  optimized_prompt r1 = optimized_prompt r2.
Proof.
  intros Hp Ho. unfold optimized_prompt. now rewrite Hp, Ho.
Qed.

Lemma optimized_prompt_not_str (request : OptimizeRequest) :
  isinstance_str (prompt (draft request)) = false ->
  optimized_prompt request = prompt (draft request).
Proof.
  intros H. unfold optimized_prompt, clarity, concise.
  destruct (prompt (draft request)); try discriminate;
    repeat match goal with |- context [if ?b then _ else _] => destruct b end;
    reflexivity.
Qed.

(** C4, as stated, fails on both counts.  A draft declared [chat] whose
    content is a string is transformed; and on a chat draft with a list
    of messages no rule reaches the messages: the list comes back as
    submitted, where the claim has "Please " and " very " removed from
    each message. *)
Lemma chat_messages_not_rewritten :
  type chat_with_string <> "text"
  /\ optimized_prompt (request_of chat_with_string "reduce tokens") = AStr "help."
  /\ optimized_prompt (request_of chat_draft "be concise") = prompt chat_draft
  /\ per_message concise (prompt chat_draft)
     = AList [chat_message "system" "be brief."; chat_message "user" "help."]
  /\ optimized_prompt (request_of chat_draft "be concise")
     <> per_message concise (prompt chat_draft).
Proof.
  split; [discriminate|].
  split; [reflexivity|].
  split; [reflexivity|].
  split; [reflexivity|].
  vm_compute. discriminate.
Qed.

(** C4, amended. The step transforms the content only when it is a
    string, whatever [draft.type] says; for a draft whose content is a
    list of messages the content comes back unchanged, so no message
    content, role or position is altered. *)
Theorem only_strings_transformed (request : OptimizeRequest) :
  (optimized_prompt request <> prompt (draft request) ->
   isinstance_str (prompt (draft request)) = true)
  /\ (forall messages, prompt (draft request) = AList messages ->
        optimized_prompt request = AList messages)
  /\ (forall other : OptimizeRequest,
        prompt (draft other) = prompt (draft request) ->
        objective other = objective request ->
        optimized_prompt other = optimized_prompt request).
Proof.
  split; [|split].
  - intros Hne. destruct (isinstance_str (prompt (draft request))) eqn:E;
      [reflexivity|].
    exfalso. apply Hne. now apply optimized_prompt_not_str.
  - intros messages Hm. rewrite optimized_prompt_not_str; [exact Hm|].
    now rewrite Hm.
  - intros other Hp Ho. now apply optimized_prompt_ext.
Qed.

Lemma only_strings_transformed_witness :
  isinstance_str (prompt chat_with_string) = true
  /\ optimized_prompt (request_of chat_draft "be concise") = prompt chat_draft
  /\ optimized_prompt
       (request_of {| type := "text"; prompt := AStr "Please help."; config := None |}
                   "reduce tokens")
     = optimized_prompt (request_of chat_with_string "reduce tokens").
Proof.
  split; [|split].
  - apply (proj1 (only_strings_transformed
                    (request_of chat_with_string "reduce tokens"))).
    vm_compute. discriminate.
  - apply (proj1 (proj2 (only_strings_transformed
                           (request_of chat_draft "be concise")))).
    reflexivity.
  - apply (proj2 (proj2 (only_strings_transformed
                           (request_of chat_with_string "reduce tokens"))));
      reflexivity.
Defined.

(** C6, as stated, fails in its second half: a draft whose content does
    not match its declared type passes validation, the step handles it by
    the shape it has, and the registry receives it. *)
Lemma mismatched_draft_accepted :
  well_formed text_with_messages = false
  /\ well_formed chat_with_string = false
  /\ OptimizeRequest_validate (request_of text_with_messages "improve clarity")
     = inr (request_of text_with_messages "improve clarity")
  /\ post_optimize (request_of chat_with_string "reduce tokens")
     = inr (optimize_prompt (request_of chat_with_string "reduce tokens"))
  /\ outcome (run langfuse
                (optimize_prompt (request_of text_with_messages "improve clarity"))
                empty_registry)
     = inr {| version := 1;
              resp_labels := ["staging"];
              resp_optimized_prompt := prompt text_with_messages;
              resp_rollout_plan := None;
              metrics := Some simulated_metrics |}.
Proof. repeat split. Qed.

(** C6, amended. A request is accepted whenever its rollout percentage,
    if any, is in range: the content of the draft is not checked against
    the declared type and no validation error is raised for it.  The
    optimization step returns a value for every draft, the submitted
    content itself when that is not a string.  The operation raises only
    when the registry's create call does, and then with status 500. *)
Theorem draft_content_unchecked (body : OptimizeRequest) :
  (forall C, rollout body = Some C -> 0 <= percentage C <= 100) ->
  post_optimize body = inr (optimize_prompt body)
  /\ (isinstance_str (prompt (draft body)) = false ->
      optimized_prompt body = prompt (draft body))
  /\ forall R (client : Langfuse R) (r : R),
      match fst (do_create_prompt client (prompt_data body) r) with
      | Returned created =>
          exists response,
            outcome (run client (optimize_prompt body) r) = inr response
            /\ resp_optimized_prompt response = optimized_prompt body
      | Raised e =>
          outcome (run client (optimize_prompt body) r)
          = inl {| status_code := 500;
                   detail := "Failed to store prompt in Langfuse: " +:+ str e |}
      end.
Proof.
  intros Hroll. split; [|split].
  - unfold post_optimize, OptimizeRequest_validate.
    destruct (rollout body) as [C|] eqn:E; [|reflexivity].
    now rewrite (RolloutConfig_validate_ok C (Hroll C eq_refl)).
  - apply optimized_prompt_not_str.
  - intros R client r.
    destruct (do_create_prompt client (prompt_data body) r) as [[created|e] r'] eqn:E;
      cbn [fst].
    + rewrite (optimize_prompt_returns body client r r' created E).
      eexists. split; reflexivity.
    + now rewrite (optimize_prompt_raises body client r r' e E).
Qed.

Lemma draft_content_unchecked_witness :
  post_optimize (request_of text_with_messages "improve clarity")
  = inr (optimize_prompt (request_of text_with_messages "improve clarity"))
  /\ optimized_prompt (request_of text_with_messages "improve clarity")
     = prompt text_with_messages.
Proof.
  destruct (draft_content_unchecked (request_of text_with_messages "improve clarity"))
    as (Hacc & Hid & _).
  - intros C HC. discriminate HC.
  - split; [exact Hacc|]. apply Hid. reflexivity.
Defined.

(** ** End to end: optimize *)

(** C5. For the greeting request the optimized content is "help."; the
    request is accepted; against any registry client the operation makes
    one call, a create carrying exactly that content; when the client
    returns a version the response has that version and its metrics have
    a [token_reduction] entry. *)
Theorem greeting_end_to_end :
  Str.replace "Please " "" "Please help." = "help."
  /\ optimized_prompt greeting_request = AStr "help."
  /\ post_optimize greeting_request = inr (optimize_prompt greeting_request)
  /\ forall R (client : Langfuse R) (r : R),
      calls (run client (optimize_prompt greeting_request) r)
      = [lf.create_prompt {| pd_name := "greeting";
                             pd_type := "text";
                             pd_prompt := AStr "help.";
                             pd_labels := ["staging"];
                             pd_config := None |}]
      /\ match fst (do_create_prompt client (prompt_data greeting_request) r) with
         | Returned created =>
             exists response m x,
               outcome (run client (optimize_prompt greeting_request) r) = inr response
               /\ version response = pc_version created
               /\ resp_optimized_prompt response = AStr "help."
               /\ metrics response = Some m
               /\ m !! "token_reduction" = Some x
         | Raised e =>
             exists h, outcome (run client (optimize_prompt greeting_request) r) = inl h
         end.
Proof.
  split; [reflexivity|]. split; [reflexivity|]. split; [reflexivity|].
  intros R client r.
  split; [now rewrite optimize_prompt_calls|].
  destruct (do_create_prompt client (prompt_data greeting_request) r)
    as [[created|e] r'] eqn:E; cbn [fst].
  - rewrite (optimize_prompt_returns greeting_request client r r' created E).
    eexists. exists simulated_metrics. eexists. cbn [outcome version metrics].
    repeat split.
  - rewrite (optimize_prompt_raises greeting_request client r r' e E).
    eexists. reflexivity.
Qed.

(** ** End to end: get and promote *)

Section AnyClient.

Context {R : Type} (client : Langfuse R).
Variables (name label : string) (r : R).

(** [get_prompt] makes one call, and fails with 404 on every exception
    the call raises. *)
Lemma get_prompt_run :
  run client (get_prompt name label) r
  = {| outcome :=
         match fst (do_get_prompt client name label r) with
         | Returned p =>
             inr {| view_name := name;
                    view_version := pc_version p;
                    view_prompt := pc_prompt p;
                    view_config := pc_config p;
                    view_labels := pc_labels p |}
         | Raised _ =>
             inl {| status_code := 404;
                    detail := "Prompt not found: " +:+ name
                              +:+ " (label: " +:+ label +:+ ")" |}
         end;
       registry := snd (do_get_prompt client name label r);
       calls := [lf.get_prompt name label] |}.
Proof.
  cbn. destruct (do_get_prompt client name label r) as [[p|e] r']; reflexivity.
Qed.

(** [promote_rollout] makes one call, a get. *)
Lemma promote_rollout_run (to_label : string) :
  run client (promote_rollout name label to_label) r
  = {| outcome :=
         match fst (do_get_prompt client name label r) with
         | Returned p =>
             inr {| message := "Prompt " +:+ name +:+ " promoted from "
                               +:+ label +:+ " to " +:+ to_label;
                    promoted_version := pc_version p;
                    promoted_labels := [to_label] |}
         | Raised e =>
             inl {| status_code := 500;
                    detail := "Failed to promote prompt: " +:+ str e |}
         end;
       registry := snd (do_get_prompt client name label r);
       calls := [lf.get_prompt name label] |}.
Proof.
  cbn. destruct (do_get_prompt client name label r) as [[p|e] r']; reflexivity.
Qed.

End AnyClient.

Lemma find_carries (reg : Registry) (name label : string) :
  labelled reg name label = false <->
  List.find (carries name label) (versions reg) = None.
Proof.
  unfold labelled. induction (versions reg) as [|v vs IH]; simpl.
  - split; reflexivity.
  - destruct (carries name label v); simpl; [split; discriminate | exact IH].
Qed.

(** C8, as stated, fails in one direction: with the backend unreachable
    the operation surfaces not-found although a version of the prompt
    carries the label. *)
Lemma backend_failure_reported_not_found :
  labelled (unreachable [greeting_v1 ["production"]]) "greeting" "production" = true
  /\ fst (registry_get "greeting" "production"
            (unreachable [greeting_v1 ["production"]]))
     = Raised {| exc_class := "ConnectionError"; str := "connection refused" |}
  /\ outcome (run langfuse (get_prompt "greeting" "production")
                (unreachable [greeting_v1 ["production"]]))
     = inl {| status_code := 404;
              detail := "Prompt not found: greeting (label: production)" |}
  /\ ~ (forall reg name label,
          not_found (outcome (run langfuse (get_prompt name label) reg)) = true
          <-> labelled reg name label = false).
Proof.
  split; [reflexivity|]. split; [reflexivity|]. split; [reflexivity|].
  intros H.
  specialize (H (unreachable [greeting_v1 ["production"]]) "greeting" "production").
  destruct H as [H _]. specialize (H eq_refl). discriminate H.
Qed.

(** C8, amended. [get_prompt] surfaces not-found exactly when the
    registry's get raises, whatever the exception: when no version of
    the prompt carries the label, and also when the backend fails; the
    two are not told apart.  Otherwise it returns the version found. *)
Theorem not_found_iff_get_raises (reg : Registry) (name label : string) :
  (not_found (outcome (run langfuse (get_prompt name label) reg)) = true
   <-> labelled reg name label = false \/ failure reg <> None)
  /\ (forall e, fst (registry_get name label reg) = Raised e ->
        outcome (run langfuse (get_prompt name label) reg)
        = inl {| status_code := 404;
                 detail := "Prompt not found: " +:+ name
                           +:+ " (label: " +:+ label +:+ ")" |})
  /\ (forall p, fst (registry_get name label reg) = Returned p ->
        outcome (run langfuse (get_prompt name label) reg)
        = inr {| view_name := name;
                 view_version := pc_version p;
                 view_prompt := pc_prompt p;
                 view_config := pc_config p;
                 view_labels := pc_labels p |}).
Proof.
  rewrite get_prompt_run. cbn [outcome do_get_prompt langfuse].
  split; [|split].
  - unfold registry_get. destruct (failure reg) as [e|] eqn:F; cbn.
    + split; [intros _; right; discriminate | reflexivity].
    + destruct (List.find (carries name label) (versions reg)) as [v|] eqn:E; cbn.
      * split; [discriminate|].
        intros [H|H]; [|congruence].
        apply find_carries in H. congruence.
      * split; [|reflexivity]. intros _. left. now apply find_carries.
  - intros e ->. reflexivity.
  - intros p ->. reflexivity.
Qed.

Lemma not_found_iff_get_raises_witness :
  not_found (outcome (run langfuse (get_prompt "greeting" "production")
                        {| versions := [greeting_v1 ["staging"]];
                           failure := None |})) = true.
Proof.
  apply (proj1 (not_found_iff_get_raises
                  {| versions := [greeting_v1 ["staging"]]; failure := None |}
                  "greeting" "production")).
  left. reflexivity.
Defined.

(** C9 on the code: promoting greeting from staging to production, with
    version 1 carrying staging.  The response names version 1 with the
    label production, but the only registry call is a get, the registry
    is left as it was, and no version carries production afterwards: a
    get for that label is answered not-found. *)
Theorem promote_rollout_writes_nothing :
  let reg := {| versions := [greeting_v1 ["staging"]]; failure := None |} in
  let out := run langfuse (promote_rollout "greeting" "staging" "production") reg in
  outcome out
  = inr {| message := "Prompt greeting promoted from staging to production";
           promoted_version := 1;
           promoted_labels := ["production"] |}
  /\ calls out = [lf.get_prompt "greeting" "staging"]
  /\ registry out = reg
  /\ labelled (registry out) "greeting" "production" = false
  /\ outcome (run langfuse (get_prompt "greeting" "production") (registry out))
     = inl {| status_code := 404;
              detail := "Prompt not found: greeting (label: production)" |}.
Proof. repeat split. Qed.

(** The same for every client and every registry state: the operation
    never issues a write. *)
Lemma promote_rollout_calls {R} (client : Langfuse R) (name from_label to_label : string) (r : R) :
  calls (run client (promote_rollout name from_label to_label) r)
  = [lf.get_prompt name from_label].
Proof. now rewrite promote_rollout_run. Qed.

Lemma promote_rollout_registry (name from_label to_label : string) (reg : Registry) :
  registry (run langfuse (promote_rollout name from_label to_label) reg) = reg.
Proof.
  rewrite promote_rollout_run. cbn. unfold registry_get.
  destruct (failure reg); [reflexivity|].
  destruct (List.find _ _); reflexivity.
Qed.

(** The end-to-end example on an empty registry. *)
Example greeting_run :
  outcome (run langfuse (optimize_prompt greeting_request) empty_registry)
  = inr {| version := 1;
           resp_labels := ["staging"];
           resp_optimized_prompt := AStr "help.";
           resp_rollout_plan := None;
           metrics := Some simulated_metrics |}.
Proof. reflexivity. Qed.

(** * Further properties of the code *)

#[local] Set Warnings "-inexact-float".

(** ** Which branch of the optimization step runs *)

Lemma not_mentions (w s : string) :
  Str.contains w (Str.lower s) = false -> ~ Str.mentions w s.
Proof.
  intros H M. apply contains_lower_mentions in M. congruence.
Qed.

Lemma contains_false (w s : string) :
  ~ Str.mentions w s -> Str.contains w (Str.lower s) = false.
Proof.
  intros H. destruct (Str.contains w (Str.lower s)) eqn:E; [|reflexivity].
  exfalso. apply H. now apply contains_lower_mentions.
Qed.

Lemma optimized_prompt_concise (request : OptimizeRequest) :
  ~ Str.mentions "clarity" (objective request) ->
  asks_concise (objective request) ->
  optimized_prompt request = concise (prompt (draft request)).
Proof.
  intros Hc Hk. unfold optimized_prompt.
  rewrite (contains_false _ _ Hc).
  destruct Hk as [H|H]; apply contains_lower_mentions in H; rewrite H;
    [reflexivity | now rewrite orb_true_r].
Qed.

Lemma optimized_prompt_other (request : OptimizeRequest) :
  ~ Str.mentions "clarity" (objective request) ->
  ~ asks_concise (objective request) ->
  optimized_prompt request = prompt (draft request).
Proof.
  intros Hc Hk. unfold optimized_prompt.
  rewrite (contains_false _ _ Hc).
  rewrite (contains_false "concise" (objective request)),
          (contains_false "reduce tokens" (objective request)).
  - reflexivity.
  - intros M. apply Hk. now right.
  - intros M. apply Hk. now left.
Qed.

(** X1. An ASCII objective that names none of the three keywords, in
    any case, leaves the draft as it is: the optimized prompt, the
    content sent to the registry and the content stored there under the
    declared type are the submitted content, whatever its shape.  The
    objective is taken ASCII because [str.lower] also maps some other
    characters onto ASCII letters (the Kelvin sign onto k), which
    [Str.lower] does not follow. *)
Theorem unrecognized_objective_is_identity (request : OptimizeRequest) :
  isascii (objective request) = true ->
  ~ Str.mentions "clarity" (objective request) ->
  ~ Str.mentions "concise" (objective request) ->
  ~ Str.mentions "reduce tokens" (objective request) ->
  optimized_prompt request = prompt (draft request)
  /\ pd_prompt (prompt_data request) = prompt (draft request)
  /\ pd_type (prompt_data request) = type (draft request).
Proof.
  intros _ Hc H1 H2.
  assert (E : optimized_prompt request = prompt (draft request)).
  { apply optimized_prompt_other; [exact Hc|]. intros [M|M]; tauto. }
  repeat split; exact E.
Qed.

Lemma unrecognized_objective_is_identity_witness :
  optimized_prompt (request_of chat_with_string "Make it SHORTER") = AStr "Please help."
  /\ pd_prompt (prompt_data (request_of chat_with_string "Make it SHORTER"))
     = AStr "Please help."
  /\ pd_type (prompt_data (request_of chat_with_string "Make it SHORTER")) = "chat".
Proof.
  apply (unrecognized_objective_is_identity
           (request_of chat_with_string "Make it SHORTER"));
    [reflexivity | apply not_mentions; reflexivity ..].
Defined.

(** X2. An objective that names "concise" or "reduce tokens" and not
    "clarity" runs the token-reduction branch: on a string every
    "Please " is removed and then every " very " becomes one space, and
    nothing is appended. *)
Theorem concise_branch_substitutes (request : OptimizeRequest) (s : string) :
  ~ Str.mentions "clarity" (objective request) ->
  asks_concise (objective request) ->
  prompt (draft request) = AStr s ->
  optimized_prompt request
  = AStr (Str.replace " very " " " (Str.replace "Please " "" s)).
Proof.
  intros Hc Hk Hs. rewrite (optimized_prompt_concise request Hc Hk).
  now rewrite Hs.
Qed.

Lemma concise_branch_substitutes_witness :
  optimized_prompt
    (request_of {| type := "text";
                   prompt := AStr "Please be very very brief. Please ";
                   config := None |} "Be CONCISE")
  = AStr (Str.replace " very " " "
            (Str.replace "Please " "" "Please be very very brief. Please ")).
Proof.
  apply concise_branch_substitutes.
  - apply not_mentions. reflexivity.
  - left. exists "Be ", "CONCISE", "". split; reflexivity.
  - reflexivity.
Defined.

(** ** Lengths *)

Lemma str_length_app (a b : string) :
  String.length (a +:+ b) = (String.length a + String.length b)%nat.
Proof.
  induction a as [|c a IH]; simpl; [reflexivity | now rewrite IH].
Qed.

Lemma startswith_length (p s : string) :
  Str.startswith p s = true -> (String.length p <= String.length s)%nat.
Proof.
  revert s. induction p as [|a p IH]; intros s H; simpl; [lia|].
  destruct s as [|b s]; simpl in H; [discriminate|].
  apply andb_true_iff in H as [_ H]. apply IH in H. simpl. lia.
Qed.

(** A scan that replaces by something no longer never lengthens, and the
    characters still to be skipped come off the length. *)
Lemma replace_scan_length (old new : string) :
  old <> EmptyString ->
  (String.length new <= String.length old)%nat ->
  forall s k,
    (String.length (Str.replace_scan k old new s) + Nat.min k (String.length s)
     <= String.length s)%nat.
Proof.
  intros Hold Hnew. induction s as [|c t IH]; intros k.
  - simpl. lia.
  - destruct k as [|k].
    + cbn [Str.replace_scan]. destruct (Str.startswith old (String c t)) eqn:E.
      * apply startswith_length in E. cbn [String.length] in E.
        rewrite str_length_app.
        specialize (IH (Nat.pred (String.length old))).
        destruct old as [|a old]; [congruence|].
        cbn [String.length Nat.pred] in *. lia.
      * specialize (IH O). cbn [String.length]. lia.
    + cbn [Str.replace_scan String.length]. specialize (IH k). lia.
Qed.

Lemma replace_length (old new s : string) :
  old <> EmptyString ->
  (String.length new <= String.length old)%nat ->
  (String.length (Str.replace old new s) <= String.length s)%nat.
Proof.
  intros Hold Hnew. destruct old as [|a old]; [congruence|].
  unfold Str.replace.
  pose proof (replace_scan_length (String a old) new Hold Hnew s O). lia.
Qed.

Lemma clarity_suffix_length : String.length clarity_suffix = 45%nat.
Proof. reflexivity. Qed.

(** X3. On a string draft only the clarity branch lengthens the text, by
    the 45 characters of its suffix; for every objective that does not
    name "clarity" the result is a string no longer than the one
    submitted. *)
Theorem only_clarity_lengthens (request : OptimizeRequest) (s : string) :
  prompt (draft request) = AStr s ->
  exists s',
    optimized_prompt request = AStr s'
    /\ (Str.mentions "clarity" (objective request) ->
        String.length s' = (String.length s + 45)%nat)
    /\ (~ Str.mentions "clarity" (objective request) ->
        (String.length s' <= String.length s)%nat).
Proof.
  intros Hs. unfold optimized_prompt. rewrite Hs.
  destruct (Str.contains "clarity" (Str.lower (objective request))) eqn:Ec.
  - eexists. split; [reflexivity|]. split.
    + intros _. now rewrite str_length_app, clarity_suffix_length.
    + intros H. exfalso. apply H. now apply contains_lower_mentions.
  - destruct (Str.contains "concise" (Str.lower (objective request))
              || Str.contains "reduce tokens" (Str.lower (objective request))).
    + eexists. split; [reflexivity|]. split.
      * intros H. apply contains_lower_mentions in H. congruence.
      * intros _.
        etransitivity; [apply replace_length; [discriminate | simpl; lia]|].
        apply replace_length; [discriminate | simpl; lia].
    + eexists. split; [reflexivity|]. split.
      * intros H. apply contains_lower_mentions in H. congruence.
      * intros _. lia.
Qed.

Lemma only_clarity_lengthens_witness :
  exists s',
    optimized_prompt greeting_request = AStr s'
    /\ (String.length s' <= String.length "Please help.")%nat.
Proof.
  destruct (only_clarity_lengthens greeting_request "Please help." eq_refl)
    as (s' & E & _ & Hle).
  exists s'. split; [exact E|]. apply Hle. apply not_mentions. reflexivity.
Defined.

(** X4. The substitutions are case-sensitive and literal: a string that
    contains neither "Please " nor " very " comes back unchanged from the
    token-reduction branch. *)
Theorem concise_without_fillers (request : OptimizeRequest) (s : string) :
  ~ Str.mentions "clarity" (objective request) ->
  asks_concise (objective request) ->
  prompt (draft request) = AStr s ->
  Str.contains "Please " s = false ->
  Str.contains " very " s = false ->
  optimized_prompt request = AStr s.
Proof.
  intros Hc Hk Hs Hp Hv.
  rewrite (optimized_prompt_concise request Hc Hk), Hs. cbn [concise].
  rewrite (replace_absent "Please " "" s) by (discriminate || assumption).
  now rewrite (replace_absent " very " " " s) by (discriminate || assumption).
Qed.

Lemma concise_without_fillers_witness :
  optimized_prompt
    (request_of {| type := "text"; prompt := AStr "please be VERY brief";
                   config := None |} "reduce tokens")
  = AStr "please be VERY brief".
Proof.
  apply concise_without_fillers; try reflexivity.
  - apply not_mentions. reflexivity.
  - right. exists "", "reduce tokens", "". split; reflexivity.
Defined.

(** X5. A leading "Please " is dropped: for the text "Please " followed
    by [rest], where [rest] holds neither filler, token reduction gives
    [rest]. *)
Theorem concise_drops_leading_please (request : OptimizeRequest) (rest : string) :
  ~ Str.mentions "clarity" (objective request) ->
  asks_concise (objective request) ->
  prompt (draft request) = AStr ("Please " +:+ rest) ->
  Str.contains "Please " rest = false ->
  Str.contains " very " rest = false ->
  optimized_prompt request = AStr rest.
Proof.
  intros Hc Hk Hs Hp Hv.
  rewrite (optimized_prompt_concise request Hc Hk), Hs. cbn [concise].
  rewrite (replace_leading "Please " "" rest) by discriminate.
  rewrite (replace_absent "Please " "" rest) by (discriminate || assumption).
  change ("" +:+ rest) with rest.
  now rewrite (replace_absent " very " " " rest) by (discriminate || assumption).
Qed.

Lemma concise_drops_leading_please_witness :
  optimized_prompt
    (request_of {| type := "text"; prompt := AStr "Please summarise the report.";
                   config := None |} "reduce tokens")
  = AStr "summarise the report.".
Proof.
  apply (concise_drops_leading_please
           (request_of {| type := "text"; prompt := AStr "Please summarise the report.";
                          config := None |} "reduce tokens")
           "summarise the report."); try reflexivity.
  - apply not_mentions. reflexivity.
  - right. exists "", "reduce tokens", "". split; reflexivity.
Defined.

(** X6. The clarity branch is not idempotent: sending the optimized
    prompt again with the same objective appends the suffix a second
    time, so the result differs from the first one. *)
Theorem clarity_not_idempotent (request : OptimizeRequest) (s : string) :
  Str.mentions "clarity" (objective request) ->
  prompt (draft request) = AStr s ->
  optimized_prompt (resubmit request)
  = AStr ((s +:+ clarity_suffix) +:+ clarity_suffix)
  /\ optimized_prompt (resubmit request) <> optimized_prompt request.
Proof.
  intros Hc Hs.
  assert (E1 : optimized_prompt request = AStr (s +:+ clarity_suffix)).
  { rewrite (optimized_prompt_clarity request Hc). now rewrite Hs. }
  assert (E2 : optimized_prompt (resubmit request)
               = AStr ((s +:+ clarity_suffix) +:+ clarity_suffix)).
  { rewrite (optimized_prompt_clarity (resubmit request) Hc).
    cbn [resubmit draft prompt]. now rewrite E1. }
  split; [exact E2|].
  rewrite E1, E2. intros [= H].
  apply (f_equal String.length) in H.
  rewrite !str_length_app, clarity_suffix_length in H. lia.
Qed.

Lemma clarity_not_idempotent_witness :
  optimized_prompt (resubmit clarity_request)
  = AStr (("Please help." +:+ clarity_suffix) +:+ clarity_suffix)
  /\ optimized_prompt (resubmit clarity_request) <> optimized_prompt clarity_request.
Proof.
  apply (clarity_not_idempotent clarity_request "Please help.").
  - exists "Improve ", "CLARITY", " and reduce tokens". split; reflexivity.
  - reflexivity.
Defined.

(** ** The registry payload *)

Lemma PromptConfig_dict_no_commit (c : PromptConfig) :
  PromptConfig_dict c !! "commitMessage" = None.
Proof. reflexivity. Qed.

Lemma truthy_Some (o : option string) (m : string) :
  truthy o = Some m <-> o = Some m /\ m <> "".
Proof.
  destruct o as [[|a t]|]; simpl; split.
  - discriminate.
  - intros [[= <-] H]. congruence.
  - intros [= <-]. split; [reflexivity | discriminate].
  - intros [H _]. exact H.
  - discriminate.
  - intros [H _]. discriminate H.
Qed.

(** X7. With a non-empty commit message the payload always has a
    config: it holds the message under [commitMessage], and beside it
    exactly the entries of the draft's config as the model holds them,
    none of them changed; for a config sent without any field these are
    the defaults 0.7, 1000 and gpt-4.  Without a draft config the message
    is its only entry. *)
Theorem commit_message_augments_config (request : OptimizeRequest) (m : string) :
  commit_message request = Some m ->
  m <> "" ->
  exists cfg : gmap string Any,
    pd_config (prompt_data request) = Some cfg
    /\ cfg !! "commitMessage" = Some (AStr m)
    /\ (forall k, k <> "commitMessage" ->
          cfg !! k = match config (draft request) with
                     | Some c => PromptConfig_dict c !! k
                     | None => None
                     end)
    /\ (forall c, config (draft request) = Some c ->
          cfg !! "temperature" = Some (opt_any AFloat (temperature c))
          /\ cfg !! "max_tokens" = Some (opt_any AInt (max_tokens c))
          /\ cfg !! "model" = Some (opt_any AStr (model c)))
    /\ (config (draft request) = Some PromptConfig_defaults ->
          cfg !! "temperature" = Some (AFloat 0.7%float)
          /\ cfg !! "max_tokens" = Some (AInt 1000)
          /\ cfg !! "model" = Some (AStr "gpt-4"))
    /\ (config (draft request) = None ->
          cfg = {[ "commitMessage" := AStr m ]}).
Proof.
  intros Hm Hne.
  assert (T : truthy (commit_message request) = Some m)
    by (apply truthy_Some; split; assumption).
  unfold prompt_data. cbn [pd_config]. rewrite T.
  eexists. split; [reflexivity|]. split; [|split; [|split; [|split]]].
  - rewrite lookup_union_r; [apply lookup_singleton_eq|].
    destruct (config (draft request)); [apply PromptConfig_dict_no_commit|].
    apply lookup_empty.
  - intros k Hk. rewrite lookup_union, lookup_singleton_ne by congruence.
    destruct (config (draft request)) as [c|].
    + now destruct (PromptConfig_dict c !! k).
    + now rewrite lookup_empty.
  - intros c ->. repeat split.
  - intros ->. repeat split.
  - intros ->. apply (left_id_L ∅ (∪)).
Qed.

Lemma commit_message_augments_config_witness :
  exists cfg : gmap string Any,
    pd_config
      (prompt_data
         {| name := "greeting"; current_prompt := None;
            draft := {| type := "text"; prompt := AStr "Please help.";
                        config := Some PromptConfig_defaults |};
            objective := "reduce tokens";
            commit_message := Some "shorter greeting";
            labels := ["staging"]; rollout := None |}) = Some cfg
    /\ cfg !! "commitMessage" = Some (AStr "shorter greeting")
    /\ cfg !! "temperature" = Some (AFloat 0.7%float)
    /\ cfg !! "max_tokens" = Some (AInt 1000)
    /\ cfg !! "model" = Some (AStr "gpt-4").
Proof.
  destruct (commit_message_augments_config
              {| name := "greeting"; current_prompt := None;
                 draft := {| type := "text"; prompt := AStr "Please help.";
                             config := Some PromptConfig_defaults |};
                 objective := "reduce tokens";
                 commit_message := Some "shorter greeting";
                 labels := ["staging"]; rollout := None |}
              "shorter greeting" eq_refl)
    as (cfg & E & Hcm & _ & _ & Hd & _).
  - discriminate.
  - exists cfg. split; [exact E|]. split; [exact Hcm|]. apply Hd. reflexivity.
Defined.

(** X8. A missing commit message and an empty one are treated alike:
    the payload's config is the draft's config as it is, with no
    [commitMessage] entry, and the payload has no config at all when the
    draft has none. *)
Theorem empty_commit_message_is_absent (request : OptimizeRequest) :
  commit_message request = None \/ commit_message request = Some "" ->
  pd_config (prompt_data request) = PromptConfig_dict <$> config (draft request)
  /\ (config (draft request) = None -> pd_config (prompt_data request) = None)
  /\ (forall cfg : gmap string Any,
        pd_config (prompt_data request) = Some cfg ->
        cfg !! "commitMessage" = None).
Proof.
  intros H.
  assert (T : truthy (commit_message request) = None)
    by (destruct H as [-> | ->]; reflexivity).
  assert (E : pd_config (prompt_data request)
              = PromptConfig_dict <$> config (draft request)).
  { unfold prompt_data. cbn [pd_config]. rewrite T.
    now destruct (config (draft request)). }
  split; [exact E|]. split.
  - intros Hn. now rewrite E, Hn.
  - intros cfg. rewrite E. destruct (config (draft request)) as [c|]; [|discriminate].
    intros [= <-]. apply PromptConfig_dict_no_commit.
Qed.

Lemma empty_commit_message_is_absent_witness :
  pd_config
    (prompt_data
       {| name := "greeting"; current_prompt := None;
          draft := {| type := "text"; prompt := AStr "Please help.";
                      config := None |};
          objective := "reduce tokens";
          commit_message := Some "";
          labels := ["staging"]; rollout := None |}) = None.
Proof.
  apply (proj1 (proj2 (empty_commit_message_is_absent
                         {| name := "greeting"; current_prompt := None;
                            draft := {| type := "text"; prompt := AStr "Please help.";
                                        config := None |};
                            objective := "reduce tokens";
                            commit_message := Some "";
                            labels := ["staging"]; rollout := None |}
                         (or_intror eq_refl)))).
  reflexivity.
Defined.

(** X9. [current_prompt] is never read: changing it changes neither
    what validation answers, nor the payload, nor the plan, nor anything
    a run against any registry client does. *)
Theorem current_prompt_ignored (request : OptimizeRequest) (cp : option string) :
  prompt_data (with_current_prompt cp request) = prompt_data request
  /\ rollout_plan (with_current_prompt cp request) = rollout_plan request
  /\ (forall e, OptimizeRequest_validate (with_current_prompt cp request) = inl e
                <-> OptimizeRequest_validate request = inl e)
  /\ forall R (client : Langfuse R) (r : R),
      run client (optimize_prompt (with_current_prompt cp request)) r
      = run client (optimize_prompt request) r.
Proof.
  destruct request as [n c d o m l ro]. split; [reflexivity|].
  split; [reflexivity|]. split.
  - intros e. unfold OptimizeRequest_validate, with_current_prompt.
    cbn [rollout]. destruct ro as [C|]; [|split; discriminate].
    destruct (RolloutConfig_validate C); [reflexivity | split; discriminate].
  - intros R client r. reflexivity.
Qed.

(** ** Failures of the endpoints *)

(** X10. Whenever [optimize_prompt] raises, the registry's create call
    has raised: the status is 500 and the detail is "Failed to store
    prompt in Langfuse: " followed by the registry's message; the outer
    handler's "Prompt optimization failed" is never what the caller
    sees.  Exactly one create call was made. *)
Theorem optimize_failure_is_registry_failure
  {R} (client : Langfuse R) (request : OptimizeRequest) (r : R) (h : HTTPException) :
  outcome (run client (optimize_prompt request) r) = inl h ->
  status_code h = 500
  /\ (exists e,
        fst (do_create_prompt client (prompt_data request) r) = Raised e
        /\ detail h = "Failed to store prompt in Langfuse: " +:+ str e)
  /\ (forall x, detail h <> "Prompt optimization failed: " +:+ x)
  /\ calls (run client (optimize_prompt request) r)
     = [lf.create_prompt (prompt_data request)].
Proof.
  intros H.
  destruct (do_create_prompt client (prompt_data request) r) as [[p|e] r'] eqn:E.
  - rewrite (optimize_prompt_returns request client r r' p E) in H. discriminate H.
  - rewrite (optimize_prompt_raises request client r r' e E) in H.
    injection H as Hh. subst h. cbn [status_code detail fst].
    split; [reflexivity|]. split; [exists e; split; reflexivity|].
    split; [intros x; discriminate|].
    now rewrite (optimize_prompt_raises request client r r' e E).
Qed.

Lemma optimize_failure_is_registry_failure_witness :
  status_code {| status_code := 500;
                 detail := "Failed to store prompt in Langfuse: connection refused" |}
  = 500
  /\ calls (run langfuse (optimize_prompt greeting_request) (unreachable []))
     = [lf.create_prompt (prompt_data greeting_request)].
Proof.
  destruct (optimize_failure_is_registry_failure
              langfuse greeting_request (unreachable [])
              {| status_code := 500;
                 detail := "Failed to store prompt in Langfuse: connection refused" |})
    as (Hs & _ & _ & Hc).
  - reflexivity.
  - split; [exact Hs | exact Hc].
Defined.

(** X11. The same failure of the registry's get is reported differently
    by the two endpoints that read: [get_prompt] answers 404 with a
    detail made of the name and the label only, [promote_rollout] answers
    500 with the registry's message in the detail.  A label that no
    version carries is thus a server error for a promotion. *)
Theorem get_failure_404_promote_500
  {R} (client : Langfuse R) (name label to_label : string) (r : R) (e : Exception) :
  fst (do_get_prompt client name label r) = Raised e ->
  outcome (run client (get_prompt name label) r)
  = inl {| status_code := 404;
           detail := "Prompt not found: " +:+ name
                     +:+ " (label: " +:+ label +:+ ")" |}
  /\ outcome (run client (promote_rollout name label to_label) r)
     = inl {| status_code := 500;
              detail := "Failed to promote prompt: " +:+ str e |}.
Proof.
  intros H. rewrite get_prompt_run, promote_rollout_run. cbn [outcome].
  now rewrite H.
Qed.

Lemma get_failure_404_promote_500_witness :
  outcome (run langfuse (get_prompt "greeting" "production")
             {| versions := [greeting_v1 ["staging"]]; failure := None |})
  = inl {| status_code := 404;
           detail := "Prompt not found: greeting (label: production)" |}
  /\ outcome (run langfuse (promote_rollout "greeting" "production" "live")
                {| versions := [greeting_v1 ["staging"]]; failure := None |})
     = inl {| status_code := 500;
              detail := "Failed to promote prompt: "
                        +:+ "no version of greeting carries production" |}.
Proof.
  apply (get_failure_404_promote_500 langfuse "greeting" "production" "live"
           {| versions := [greeting_v1 ["staging"]]; failure := None |}
           {| exc_class := "NotFoundError";
              str := "no version of greeting carries production" |}).
  reflexivity.
Defined.

(** X12. [promote_rollout] never writes: against any registry client its
    only call is one get under [from_label], and [to_label] is in no
    call.  On the registry modelled here the state is therefore left as it
    was, so every later [get_prompt] answers as it would have before the
    promotion. *)
Theorem promote_rollout_is_read_only :
  (forall R (client : Langfuse R) (name from_label to_label : string) (r : R),
      calls (run client (promote_rollout name from_label to_label) r)
      = [lf.get_prompt name from_label])
  /\ forall (reg : Registry) (name from_label to_label n l : string),
      registry (run langfuse (promote_rollout name from_label to_label) reg) = reg
      /\ run langfuse (get_prompt n l)
           (registry (run langfuse (promote_rollout name from_label to_label) reg))
         = run langfuse (get_prompt n l) reg.
Proof.
  split.
  - intros R client name from_label to_label r. now rewrite promote_rollout_run.
  - intros reg name from_label to_label n l.
    assert (E : registry (run langfuse (promote_rollout name from_label to_label) reg)
                = reg).
    { rewrite promote_rollout_run. cbn. unfold registry_get.
      destruct (failure reg); [reflexivity|].
      destruct (List.find _ _); reflexivity. }
    split; [exact E | now rewrite E].
Qed.

(** ** The health endpoint *)

(** X14. [health_check] does not consult the registry: against any
    client, in any state, it makes no call, leaves the state alone and
    answers "healthy"; the URL it reports is the value of
    LANGFUSE_BASE_URL when the variable is set, the empty string
    included, and http://langfuse-web:3000 when it is not. *)
Theorem health_check_ignores_registry
  {R} (client : Langfuse R) (r : R) (environ : gmap string string) :
  exists answer,
    run client (health_check environ) r
    = {| outcome := inr answer; registry := r; calls := [] |}
    /\ status answer = "healthy"
    /\ service answer = "prompt-optimizer"
    /\ (forall url, environ !! "LANGFUSE_BASE_URL" = Some url ->
          health_langfuse_url answer = url)
    /\ (environ !! "LANGFUSE_BASE_URL" = None ->
          health_langfuse_url answer = "http://langfuse-web:3000").
Proof.
  eexists. split; [reflexivity|]. cbn [status service health_langfuse_url].
  unfold langfuse_url, getenv. repeat split.
  - intros url ->. reflexivity.
  - intros ->. reflexivity.
Qed.

Lemma health_check_ignores_registry_witness :
  exists answer,
    outcome (run langfuse (health_check (<["LANGFUSE_BASE_URL" := ""]> ∅))
               (unreachable []))
    = inr answer
    /\ status answer = "healthy"
    /\ health_langfuse_url answer = "".
Proof.
  destruct (health_check_ignores_registry langfuse (unreachable [])
              (<["LANGFUSE_BASE_URL" := ""]> ∅))
    as (answer & E & Hs & _ & Hurl & _).
  exists answer. split; [now rewrite E|]. split; [exact Hs|].
  apply Hurl. reflexivity.
Defined.

(** ** Optimize, then read back *)

Lemma existsb_eqb_In (l : string) (ls : list string) :
  In l ls -> existsb (String.eqb l) ls = true.
Proof.
  intros H. apply existsb_exists. exists l. split; [exact H|].
  apply String.eqb_refl.
Qed.

(** On a working registry a create answers with the version it stores,
    and a get under one of the labels sent finds that version. *)
Lemma registry_get_after_create (reg : Registry) (d : PromptData) (l : string) :
  failure reg = None ->
  In l (pd_labels d) ->
  exists created reg',
    registry_create d reg = (Returned created, reg')
    /\ pc_version created = next_version (pd_name d) reg
    /\ pc_prompt created = pd_prompt d
    /\ pc_labels created = pd_labels d
    /\ registry_get (pd_name d) l reg' = (Returned created, reg').
Proof.
  intros Hf Hl. unfold registry_create. rewrite Hf.
  eexists. eexists. split; [reflexivity|]. repeat split.
  unfold registry_get. cbn [failure versions List.find].
  unfold carries at 1. cbn [pv_name pv_labels].
  now rewrite String.eqb_refl, (existsb_eqb_In l _ Hl).
Qed.

(** X15. Round trip on a working registry: after a successful
    [optimize_prompt], [get_prompt] with the request's name and any one
    of its labels returns the version number the response announced, the
    optimized prompt and the request's labels. *)
Theorem optimize_then_get (reg : Registry) (request : OptimizeRequest) (l : string) :
  failure reg = None ->
  In l (labels request) ->
  exists response view,
    outcome (run langfuse (optimize_prompt request) reg) = inr response
    /\ outcome (run langfuse (get_prompt (name request) l)
                  (registry (run langfuse (optimize_prompt request) reg)))
       = inr view
    /\ view_name view = name request
    /\ view_version view = version response
    /\ view_prompt view = optimized_prompt request
    /\ view_prompt view = resp_optimized_prompt response
    /\ view_labels view = labels request.
Proof.
  intros Hf Hl.
  destruct (registry_get_after_create reg (prompt_data request) l Hf Hl)
    as (created & reg' & Hc & Hv & Hp & Hls & Hg).
  rewrite (optimize_prompt_returns request langfuse reg reg' created Hc).
  cbn [outcome registry]. rewrite get_prompt_run.
  cbn [outcome do_get_prompt langfuse]. cbn [prompt_data pd_name] in Hg.
  rewrite Hg. cbn [fst].
  eexists. eexists. split; [reflexivity|]. split; [reflexivity|].
  cbn [view_name view_version view_prompt view_labels version resp_optimized_prompt].
  repeat split; assumption.
Qed.

Lemma optimize_then_get_witness :
  exists response view,
    outcome (run langfuse (optimize_prompt greeting_request)
               {| versions := [greeting_v1 ["staging"]]; failure := None |})
    = inr response
    /\ outcome (run langfuse (get_prompt "greeting" "staging")
                  (registry (run langfuse (optimize_prompt greeting_request)
                               {| versions := [greeting_v1 ["staging"]];
                                  failure := None |})))
       = inr view
    /\ view_version view = version response
    /\ view_prompt view = AStr "help.".
Proof.
  destruct (optimize_then_get
              {| versions := [greeting_v1 ["staging"]]; failure := None |}
              greeting_request "staging" eq_refl)
    as (response & view & E1 & E2 & _ & Hv & Hp & _).
  - left. reflexivity.
  - exists response, view. repeat split; assumption.
Defined.

(** X16. After a successful [optimize_prompt] on a working registry, a
    promotion from any one of the request's labels succeeds and names the
    version just created, with [to_label] as its only label. *)
Theorem optimize_then_promote
  (reg : Registry) (request : OptimizeRequest) (l to_label : string) :
  failure reg = None ->
  In l (labels request) ->
  exists response,
    outcome (run langfuse (optimize_prompt request) reg) = inr response
    /\ outcome (run langfuse (promote_rollout (name request) l to_label)
                  (registry (run langfuse (optimize_prompt request) reg)))
       = inr {| message := "Prompt " +:+ name request +:+ " promoted from "
                           +:+ l +:+ " to " +:+ to_label;
                promoted_version := version response;
                promoted_labels := [to_label] |}.
Proof.
  intros Hf Hl.
  destruct (registry_get_after_create reg (prompt_data request) l Hf Hl)
    as (created & reg' & Hc & Hv & Hp & Hls & Hg).
  rewrite (optimize_prompt_returns request langfuse reg reg' created Hc).
  cbn [outcome registry]. rewrite promote_rollout_run.
  cbn [outcome do_get_prompt langfuse]. cbn [prompt_data pd_name] in Hg.
  rewrite Hg. cbn [fst].
  eexists. split; reflexivity.
Qed.

Lemma optimize_then_promote_witness :
  exists response,
    outcome (run langfuse (optimize_prompt greeting_request) empty_registry)
    = inr response
    /\ outcome (run langfuse (promote_rollout "greeting" "staging" "production")
                  (registry (run langfuse (optimize_prompt greeting_request)
                               empty_registry)))
       = inr {| message := "Prompt greeting promoted from staging to production";
                promoted_version := version response;
                promoted_labels := ["production"] |}.
Proof.
  apply (optimize_then_promote empty_registry greeting_request "staging" "production").
  - reflexivity.
  - left. reflexivity.
Defined.

(** ** What a successful response is made of *)

(** X17. The rollout plan goes to the caller only: the registry call
    and the registry state after it are the same whatever rollout
    configuration the request carries, and the responses differ in the
    plan alone. *)
Theorem rollout_plan_not_stored
  {R} (client : Langfuse R) (request : OptimizeRequest)
  (ro : option RolloutConfig) (r : R) :
  prompt_data (with_rollout_config ro request) = prompt_data request
  /\ calls (run client (optimize_prompt (with_rollout_config ro request)) r)
     = calls (run client (optimize_prompt request) r)
  /\ registry (run client (optimize_prompt (with_rollout_config ro request)) r)
     = registry (run client (optimize_prompt request) r)
  /\ match outcome (run client (optimize_prompt request) r) with
     | inr response =>
         outcome (run client (optimize_prompt (with_rollout_config ro request)) r)
         = inr {| version := version response;
                  resp_labels := resp_labels response;
                  resp_optimized_prompt := resp_optimized_prompt response;
                  resp_rollout_plan := rollout_plan (with_rollout_config ro request);
                  metrics := metrics response |}
     | inl h =>
         outcome (run client (optimize_prompt (with_rollout_config ro request)) r)
         = inl h
     end.
Proof.
  assert (E : prompt_data (with_rollout_config ro request) = prompt_data request)
    by reflexivity.
  split; [exact E|].
  destruct (do_create_prompt client (prompt_data request) r) as [[p|e] r'] eqn:C.
  - rewrite (optimize_prompt_returns request client r r' p C).
    rewrite (optimize_prompt_returns (with_rollout_config ro request) client r r' p)
      by (rewrite E; exact C).
    cbn [calls registry outcome]. rewrite E. repeat split.
  - rewrite (optimize_prompt_raises request client r r' e C).
    rewrite (optimize_prompt_raises (with_rollout_config ro request) client r r' e)
      by (rewrite E; exact C).
    cbn [calls registry outcome]. rewrite E. repeat split.
Qed.

(** X18. Of what the registry answers, a successful response uses the
    version number alone: its labels are the request's, its prompt is the
    one computed locally, and its metrics are the four fixed simulated
    values, the same for every request, also one whose prompt was left as
    it was or made longer. *)
Theorem response_uses_only_version
  {R} (client : Langfuse R) (request : OptimizeRequest) (r : R)
  (response : OptimizeResponse) :
  outcome (run client (optimize_prompt request) r) = inr response ->
  (exists created,
      fst (do_create_prompt client (prompt_data request) r) = Returned created
      /\ version response = pc_version created)
  /\ resp_labels response = labels request
  /\ resp_optimized_prompt response = optimized_prompt request
  /\ resp_rollout_plan response = rollout_plan request
  /\ exists m : gmap string float,
      metrics response = Some m
      /\ m !! "token_reduction" = Some 0.15%float
      /\ m !! "clarity_score" = Some 0.92%float
      /\ m !! "coherence_score" = Some 0.89%float
      /\ m !! "optimization_iterations" = Some 3%float
      /\ size m = 4%nat.
Proof.
  intros H.
  destruct (do_create_prompt client (prompt_data request) r) as [[p|e] r'] eqn:C.
  - rewrite (optimize_prompt_returns request client r r' p C) in H.
    injection H as Hr. subst response.
    cbn [fst version resp_labels resp_optimized_prompt resp_rollout_plan metrics].
    split; [exists p; split; reflexivity|].
    repeat (split; [reflexivity|]).
    exists simulated_metrics. repeat split.
  - rewrite (optimize_prompt_raises request client r r' e C) in H. discriminate H.
Qed.

Lemma response_uses_only_version_witness :
  resp_optimized_prompt
    {| version := 1;
       resp_labels := ["staging"];
       resp_optimized_prompt := AStr ("Please help." +:+ clarity_suffix);
       resp_rollout_plan := None;
       metrics := Some simulated_metrics |}
  = optimized_prompt clarity_request
  /\ exists m : gmap string float,
      Some simulated_metrics = Some m
      /\ m !! "token_reduction" = Some 0.15%float.
Proof.
  destruct (response_uses_only_version langfuse clarity_request empty_registry
              {| version := 1;
                 resp_labels := ["staging"];
                 resp_optimized_prompt := AStr ("Please help." +:+ clarity_suffix);
                 resp_rollout_plan := None;
                 metrics := Some simulated_metrics |})
    as (_ & _ & Hp & _ & m & Hm & Ht & _).
  - reflexivity.
  - split; [exact Hp|]. exists m. split; [exact Hm | exact Ht].
Defined.
